(** * Plausible Analytics MCP server: the HTTP entry point

    A shallow embedding of [src/http-server.ts] and
    [src/firebase-analytics.ts]: key sanitising for the remote store, the
    analytics recorder, the dual-mode persistence and the [/mcp] handler
    with its credential-scoped server cache.

    Conventions of the embedding.
    - A JS string is a Rocq [string], one character per code unit.  The
      characters the code inspects (the six characters of [sanitizeKey],
      [","] and the white space of [trim]) lie below 256; [substring]
      only counts code units.
    - A JS number holding a count is a [Z]: integer arithmetic on doubles
      is exact below 2^53.
    - A plain JS object is the list of its own enumerable properties in
      the order [Object.entries] enumerates them, together with its
      prototype.  [Record<string, number>] counters follow the type the
      source declares for them.
    - The [Map] of servers is a [gmap]; object identity of a server is the
      number it received when it was allocated.
    - The clock, the file system, the remote store and the MCP SDK are
      the environment: their answers are inputs of the functions that
      consult them. *)

From Stdlib Require Import ZArith String Ascii List Bool Lia.
From stdpp Require Import base option gmap strings.
Import ListNotations.

Set Warnings "-register-all".

Open Scope string_scope.
Open Scope list_scope.
Open Scope Z_scope.

(* ===================================================================== *)
(** ** JavaScript values and [sanitizeObject] *)
(* ===================================================================== *)

Module Js.

(** The values [sanitizeObject] can meet in JSON-like data.  [VObject p
    props] is an ordinary object with prototype [p] and own enumerable
    properties [props]; the object literal [{}] is
    [VObject VObjectPrototype []].  [VObjectPrototype] is the intrinsic
    [Object.prototype], which carries the [__proto__] accessor. *)
Inductive value : Type :=
  | VUndefined
  | VNull
  | VBool (b : bool)
  | VNum (n : Z)
  | VStr (s : string)
  | VObjectPrototype
  | VArray (items : list value)
  | VObject (proto : value) (props : list (string * value)).

Definition props_t : Type := list (string * value).

Definition empty_object : value := VObject VObjectPrototype [].

(** Induction over the nesting of arrays and objects. *)
Section value_induction.
Variable P : value -> Prop.
Hypothesis Hundef : P VUndefined.
Hypothesis Hnull : P VNull.
Hypothesis Hbool : forall b, P (VBool b).
Hypothesis Hnum : forall n, P (VNum n).
Hypothesis Hstr : forall s, P (VStr s).
Hypothesis Hop : P VObjectPrototype.
Hypothesis Harr : forall items, Forall P items -> P (VArray items).
Hypothesis Hobj : forall p props,
    P p -> Forall (fun kv => P (snd kv)) props -> P (VObject p props).

Fixpoint value_nested_ind (v : value) : P v :=
  match v with
  | VUndefined => Hundef
  | VNull => Hnull
  | VBool b => Hbool b
  | VNum n => Hnum n
  | VStr s => Hstr s
  | VObjectPrototype => Hop
  | VArray items =>
      Harr items
        ((fix go (l : list value) : Forall P l :=
            match l with
            | [] => @List.Forall_nil _ P
            | x :: l' => @List.Forall_cons _ P x l' (value_nested_ind x) (go l')
            end) items)
  | VObject p props =>
      Hobj p props (value_nested_ind p)
        ((fix go (l : props_t) : Forall (fun kv => P (snd kv)) l :=
            match l with
            | [] => @List.Forall_nil _ (fun kv => P (snd kv))
            | kv :: l' =>
                @List.Forall_cons _ (fun kv => P (snd kv)) kv l'
                  (value_nested_ind (snd kv)) (go l')
            end) props)
  end.
End value_induction.

(** *** Strings as character lists *)

Definition chars (s : string) : list ascii := list_ascii_of_string s.

Fixpoint map_chars (f : ascii -> ascii) (s : string) : string :=
  match s with
  | EmptyString => EmptyString
  | String c s' => String (f c) (map_chars f s')
  end.

Definition has_char (c : ascii) (s : string) : bool :=
  existsb (Ascii.eqb c) (chars s).

(** The character class [[.#$/\[\]]] of [sanitizeKey]. *)
Definition special (c : ascii) : bool :=
  existsb (Ascii.eqb c) ["."; "#"; "$"; "/"; "["; "]"]%char.

(** [key.replace(/[.#$/\[\]]/g, '_')] *)
Definition sanitizeKey (key : string) : string :=
  map_chars (fun c => if special c then "_"%char else c) key.

(** *** Property assignment on a fresh object *)

Fixpoint has_key (k : string) (props : props_t) : bool :=
  match props with
  | [] => false
  | (k', _) :: rest => String.eqb k k' || has_key k rest
  end.

Fixpoint update_key (k : string) (v : value) (props : props_t) : props_t :=
  match props with
  | [] => []
  | (k', v') :: rest =>
      if String.eqb k k' then (k', v) :: rest
      else (k', v') :: update_key k v rest
  end.

Definition is_object_or_null (v : value) : bool :=
  match v with
  | VNull | VObjectPrototype | VArray _ | VObject _ _ => true
  | _ => false
  end.

(** Looking [__proto__] up along a prototype chain that starts at [p]:
    does the lookup end in the accessor of [Object.prototype]?  An own
    data property of that name on the way shadows it; a [null] prototype
    ends the chain before it. *)
Fixpoint proto_setter_reachable (p : value) : bool :=
  match p with
  | VObjectPrototype => true
  | VArray _ => true
  | VObject p' props =>
      if has_key "__proto__" props then false else proto_setter_reachable p'
  | _ => false
  end.

(** [sanitized[k] = v] on the object under construction, given as its
    prototype and its own properties.  An own property is overwritten in
    place.  Otherwise the key [__proto__] that reaches the inherited
    accessor runs the setter, which replaces the prototype when [v] is an
    object or [null] and does nothing for a primitive; every other
    assignment creates a new own property, last in enumeration order. *)
Definition js_set (o : value * props_t) (k : string) (v : value)
  : value * props_t :=
  let '(p, props) := o in
  if has_key k props then (p, update_key k v props)
  else if String.eqb k "__proto__" && proto_setter_reachable p then
    if is_object_or_null v then (v, props) else (p, props)
  else (p, props ++ [(k, v)]).

Definition to_object (o : value * props_t) : value := VObject (fst o) (snd o).

(** Defining an own data property, as object spread and object literals
    do: no setter is consulted. *)
Definition put (props : props_t) (kv : string * value) : props_t :=
  if has_key (fst kv) props then update_key (fst kv) (snd kv) props
  else props ++ [kv].

(** [sanitizeObject]: primitives and [null] are returned as they are,
    an array is mapped, any other object is rebuilt into a fresh [{}]
    from its [Object.entries]. *)
Fixpoint sanitizeObject (obj : value) : value :=
  match obj with
  | VUndefined | VNull | VBool _ | VNum _ | VStr _ => obj
  | VArray items => VArray (List.map sanitizeObject items)
  | VObjectPrototype => empty_object
  | VObject _ props =>
      to_object
        (fold_left
           (fun sanitized kv =>
              let sanitizedKey := sanitizeKey (fst kv) in
              js_set sanitized sanitizedKey (sanitizeObject (snd kv)))
           props (VObjectPrototype, []))
  end.

(** *** Predicates on nested data *)

(** Every key of every mapping, at any depth, satisfies [P]. *)
Fixpoint all_keys (P : string -> bool) (v : value) : bool :=
  match v with
  | VArray items => forallb (all_keys P) items
  | VObject _ props =>
      forallb (fun kv => P (fst kv) && all_keys P (snd kv)) props
  | _ => true
  end.

Fixpoint nodupb (l : list string) : bool :=
  match l with
  | [] => true
  | x :: l' => negb (existsb (String.eqb x) l') && nodupb l'
  end.

(** No key, at any depth, is turned into [__proto__] by [sanitizeKey]. *)
Definition proto_free (v : value) : bool :=
  all_keys (fun k => negb (String.eqb (sanitizeKey k) "__proto__")) v.

(** In every mapping, at any depth, the sanitised keys are pairwise
    different. *)
Fixpoint collision_free (v : value) : bool :=
  match v with
  | VArray items => forallb collision_free items
  | VObject _ props =>
      nodupb (List.map (fun kv => sanitizeKey (fst kv)) props)
      && forallb (fun kv => collision_free (snd kv)) props
  | _ => true
  end.

(** The same data with every key replaced by its sanitised form and
    nothing else touched: the reading of "no other content change". *)
Fixpoint rename_keys (v : value) : value :=
  match v with
  | VArray items => VArray (List.map rename_keys items)
  | VObjectPrototype => empty_object
  | VObject _ props =>
      VObject VObjectPrototype
        (List.map (fun kv => (sanitizeKey (fst kv), rename_keys (snd kv))) props)
  | _ => v
  end.

(** The primitive values of a structure, left to right. *)
Fixpoint leaves (v : value) : list value :=
  match v with
  | VArray items => flat_map leaves items
  | VObject _ props => flat_map (fun kv => leaves (snd kv)) props
  | VObjectPrototype => []
  | _ => [v]
  end.

(** *** Auxiliary notions used when reasoning about the loop *)

(** One iteration's key and value. *)
Definition sanitize_entry (kv : string * value) : string * value :=
  (sanitizeKey (fst kv), sanitizeObject (snd kv)).

Fixpoint distinct_keys (props : props_t) : bool :=
  match props with
  | [] => true
  | (k, _) :: rest => negb (has_key k rest) && distinct_keys rest
  end.

Definition entry_ok (P : string -> bool) (kv : string * value) : bool :=
  P (fst kv) && all_keys P (snd kv).

(** An entry that a pass of [sanitizeObject] leaves as it is. *)
Definition fixed_entry (kv : string * value) : Prop :=
  sanitizeKey (fst kv) = fst kv /\ sanitizeObject (snd kv) = snd kv
  /\ fst kv <> "__proto__".

End Js.

(* ===================================================================== *)
(** ** The analytics recorder *)
(* ===================================================================== *)

Module Analytics.

Definition MAX_RECENT_CALLS : nat := 100.

(** An entry of [recentToolCalls]. *)
Record ToolCall : Type := mkToolCall {
  tool : string;
  timestamp : string;
  clientIp : string;
  userAgent : string;
}.

(** [Record<string, number>]: own properties in creation order.  (JS
    enumerates keys that look like array indices before the others; no
    statement below depends on where such a key stands.) *)
Definition counts : Type := list (string * Z).

(** The [Analytics] interface of [firebase-analytics.ts]. *)
Record Analytics : Type := mkAnalytics {
  serverStartTime : string;
  totalRequests : Z;
  totalToolCalls : Z;
  requestsByMethod : counts;
  requestsByEndpoint : counts;
  toolCalls : counts;
  recentToolCalls : list ToolCall;
  clientsByIp : counts;
  clientsByUserAgent : counts;
  hourlyRequests : counts;
}.

(** The object literal the module starts with; [now] is the clock at
    process start. *)
Definition initial (now : string) : Analytics :=
  {| serverStartTime := now; totalRequests := 0; totalToolCalls := 0;
     requestsByMethod := []; requestsByEndpoint := []; toolCalls := [];
     recentToolCalls := []; clientsByIp := []; clientsByUserAgent := [];
     hourlyRequests := [] |}.

(** *** Counter objects *)

Fixpoint get (k : string) (m : counts) : option Z :=
  match m with
  | [] => None
  | (k', n) :: rest => if String.eqb k k' then Some n else get k rest
  end.

Fixpoint set (k : string) (n : Z) (m : counts) : counts :=
  match m with
  | [] => [(k, n)]
  | (k', n') :: rest =>
      if String.eqb k k' then (k', n) :: rest else (k', n') :: set k n rest
  end.

(** [m[k] || 0]: a missing key and a zero both give [0]. *)
Definition get_or_zero (k : string) (m : counts) : Z :=
  match get k m with
  | Some n => if n =? 0 then 0 else n
  | None => 0
  end.

(** [m[k] = (m[k] || 0) + 1] on the own properties of [m].  A key that
    names an inherited member of [Object.prototype] (no HTTP method and
    no endpoint label does) would read that member instead of a count;
    such keys are outside the model. *)
Definition bump (k : string) (m : counts) : counts :=
  set k (get_or_zero k m + 1) m.

(** The sum of the values of a counter object. *)
Definition total (m : counts) : Z :=
  fold_right (fun kv acc => snd kv + acc) 0 m.

(** *** Requests as the recorder reads them *)

(** The JSON body of a request, with the members the handlers read. *)
Record Body : Type := mkBody {
  b_method : option string;          (* body.method *)
  b_params_name : option string;     (* body.params?.name *)
  b_totalRequests : option Z;        (* body.totalRequests *)
  b_totalToolCalls : option Z;       (* body.totalToolCalls *)
}.

Record Request : Type := mkRequest {
  method : string;                    (* req.method *)
  x_forwarded_for : option string;    (* req.headers['x-forwarded-for'] *)
  user_agent : option string;         (* req.headers['user-agent'] *)
  ip : option string;                 (* req.ip *)
  query_apiKey : option string;       (* req.query.apiKey *)
  query_apiUrl : option string;       (* req.query.apiUrl *)
  header_apiKey : option string;      (* req.headers['x-plausible-api-key'] *)
  header_apiUrl : option string;      (* req.headers['x-plausible-api-url'] *)
  body : option Body;                 (* req.body *)
}.

(** A string operand of [||]: [undefined] and [""] are falsy. *)
Definition truthy (o : option string) : option string :=
  match o with
  | Some EmptyString => None
  | _ => o
  end.

(** [a || d] with a string default. *)
Definition or_else (o : option string) (d : string) : string :=
  match truthy o with
  | Some s => s
  | None => d
  end.

(** [s.split(',')[0]] *)
Fixpoint before_comma (s : string) : string :=
  match s with
  | EmptyString => EmptyString
  | String c rest =>
      if Ascii.eqb c ","%char then EmptyString else String c (before_comma rest)
  end.

(** White space of [trim] among the characters below 256. *)
Definition is_space (c : ascii) : bool :=
  existsb (Nat.eqb (nat_of_ascii c)) [9; 10; 11; 12; 13; 32; 160]%nat.

Fixpoint trim_start (s : string) : string :=
  match s with
  | EmptyString => EmptyString
  | String c rest => if is_space c then trim_start rest else s
  end.

Definition reverse (s : string) : string :=
  string_of_list_ascii (List.rev (list_ascii_of_string s)).

Definition trim (s : string) : string :=
  reverse (trim_start (reverse (trim_start s))).

(** [(req.headers['x-forwarded-for'] as string)?.split(',')[0]?.trim()
     || req.ip || 'unknown'] *)
Definition client_ip (req : Request) : string :=
  match truthy (option_map (fun h => trim (before_comma h)) (x_forwarded_for req)) with
  | Some s => s
  | None => or_else (ip req) "unknown"
  end.

(** [(req.headers['user-agent'] || 'unknown').substring(0, 50)] *)
Definition short_agent (req : Request) : string :=
  String.substring 0 50 (or_else (user_agent req) "unknown").

(** [trackRequest(req, endpoint)]; [now] is [new Date().toISOString()]. *)
Definition trackRequest (now : string) (req : Request) (endpoint : string)
    (a : Analytics) : Analytics :=
  {| serverStartTime := serverStartTime a;
     totalRequests := totalRequests a + 1;
     totalToolCalls := totalToolCalls a;
     requestsByMethod := bump (method req) (requestsByMethod a);
     requestsByEndpoint := bump endpoint (requestsByEndpoint a);
     toolCalls := toolCalls a;
     recentToolCalls := recentToolCalls a;
     clientsByIp := bump (client_ip req) (clientsByIp a);
     clientsByUserAgent := bump (short_agent req) (clientsByUserAgent a);
     hourlyRequests := bump (String.substring 0 13 now) (hourlyRequests a) |}.

(** [unshift] followed by the conditional [pop]. *)
Definition push_recent (c : ToolCall) (recent : list ToolCall) : list ToolCall :=
  let recent' := c :: recent in
  if Nat.ltb MAX_RECENT_CALLS (length recent') then removelast recent'
  else recent'.

(** [trackToolCall(toolName, req)] *)
Definition trackToolCall (now : string) (toolName : string) (req : Request)
    (a : Analytics) : Analytics :=
  let toolCall :=
    {| tool := toolName; timestamp := now;
       clientIp := client_ip req; userAgent := short_agent req |} in
  {| serverStartTime := serverStartTime a;
     totalRequests := totalRequests a;
     totalToolCalls := totalToolCalls a + 1;
     requestsByMethod := requestsByMethod a;
     requestsByEndpoint := requestsByEndpoint a;
     toolCalls := bump toolName (toolCalls a);
     recentToolCalls := push_recent toolCall (recentToolCalls a);
     clientsByIp := clientsByIp a;
     clientsByUserAgent := clientsByUserAgent a;
     hourlyRequests := hourlyRequests a |}.

(** The record a call leaves in [recentToolCalls]. *)
Definition record_of (call : string * string * Request) : ToolCall :=
  let '(now, toolName, req) := call in
  {| tool := toolName; timestamp := now;
     clientIp := client_ip req; userAgent := short_agent req |}.

(** Sequences of recorder calls, oldest first. *)
Definition trackToolCalls (calls : list (string * string * Request))
    (a : Analytics) : Analytics :=
  fold_left (fun a call =>
               let '(now, toolName, req) := call in
               trackToolCall now toolName req a) calls a.

Definition trackRequests (calls : list (string * Request * string))
    (a : Analytics) : Analytics :=
  fold_left (fun a call =>
               let '(now, req, endpoint) := call in
               trackRequest now req endpoint a) calls a.


(** *** The analytics object as a JavaScript value *)

Definition counts_value (m : counts) : Js.value :=
  Js.VObject Js.VObjectPrototype
    (List.map (fun kv => (fst kv, Js.VNum (snd kv))) m).

Definition toolcall_value (c : ToolCall) : Js.value :=
  Js.VObject Js.VObjectPrototype
    [("tool", Js.VStr (tool c)); ("timestamp", Js.VStr (timestamp c));
     ("clientIp", Js.VStr (clientIp c)); ("userAgent", Js.VStr (userAgent c))].

Definition to_value (a : Analytics) : Js.value :=
  Js.VObject Js.VObjectPrototype
    [("serverStartTime", Js.VStr (serverStartTime a));
     ("totalRequests", Js.VNum (totalRequests a));
     ("totalToolCalls", Js.VNum (totalToolCalls a));
     ("requestsByMethod", counts_value (requestsByMethod a));
     ("requestsByEndpoint", counts_value (requestsByEndpoint a));
     ("toolCalls", counts_value (toolCalls a));
     ("recentToolCalls", Js.VArray (List.map toolcall_value (recentToolCalls a)));
     ("clientsByIp", counts_value (clientsByIp a));
     ("clientsByUserAgent", counts_value (clientsByUserAgent a));
     ("hourlyRequests", counts_value (hourlyRequests a))].

End Analytics.

(* ===================================================================== *)
(** ** Dual-mode persistence *)
(* ===================================================================== *)

Module Persist.
Import Analytics.

(** What the local file holds.  The text written by
    [JSON.stringify(analytics, null, 2)] is identified with the document
    it denotes: [JSON.parse] gives back a structurally equal object for
    the strings, integer counts, arrays and plain objects of an
    [Analytics].  Any other text makes [JSON.parse] throw. *)
Inductive file_content : Type :=
  | FileJson (doc : Analytics)
  | FileGarbage.

(** What [snapshot.val()] returns when the remote store has data; the
    store drops empty objects and arrays, so every member may be absent. *)
Record FbData : Type := mkFbData {
  d_serverStartTime : option string;
  d_totalRequests : option Z;
  d_totalToolCalls : option Z;
  d_requestsByMethod : option counts;
  d_requestsByEndpoint : option counts;
  d_toolCalls : option counts;
  d_recentToolCalls : option (list ToolCall);
  d_clientsByIp : option counts;
  d_clientsByUserAgent : option counts;
  d_hourlyRequests : option counts;
}.

(** Calls into the file system and the remote store, in the order they
    are made. *)
Inductive io_event : Type :=
  | RefOnce
  | RefSet (doc : Js.value)
  | ExistsDir
  | MkDir
  | ExistsFile
  | ReadFile
  | WriteFile (doc : Analytics).

Inductive log_line : Type :=
  | Log (msg : string)
  | LogError (msg : string) (err : string).

(** The environment of the persistence layer. *)
Record World : Type := mkWorld {
  fb_initialized : bool;             (* FirebaseAnalytics.initialized *)
  remote_up : bool;                  (* remote calls succeed *)
  remote_snapshot : option FbData;   (* the value at the reference *)
  dir_exists : bool;                 (* ANALYTICS_DATA_DIR exists *)
  disk_writable : bool;              (* mkdirSync, writeFileSync succeed *)
  file : option file_content;        (* ANALYTICS_FILE *)
  io : list io_event;                (* newest first *)
  console : list log_line;           (* newest first *)
}.

Definition with_io (e : io_event) (w : World) : World :=
  {| fb_initialized := fb_initialized w; remote_up := remote_up w;
     remote_snapshot := remote_snapshot w; dir_exists := dir_exists w;
     disk_writable := disk_writable w; file := file w;
     io := e :: io w; console := console w |}.

Definition with_console (l : log_line) (w : World) : World :=
  {| fb_initialized := fb_initialized w; remote_up := remote_up w;
     remote_snapshot := remote_snapshot w; dir_exists := dir_exists w;
     disk_writable := disk_writable w; file := file w;
     io := io w; console := l :: console w |}.

Definition with_dir (w : World) : World :=
  {| fb_initialized := fb_initialized w; remote_up := remote_up w;
     remote_snapshot := remote_snapshot w; dir_exists := true;
     disk_writable := disk_writable w; file := file w;
     io := io w; console := console w |}.

Definition with_file (c : file_content) (w : World) : World :=
  {| fb_initialized := fb_initialized w; remote_up := remote_up w;
     remote_snapshot := remote_snapshot w; dir_exists := dir_exists w;
     disk_writable := disk_writable w; file := Some c;
     io := io w; console := console w |}.

(** *** Computations that may throw *)

Inductive result (A : Type) : Type :=
  | Ok (a : A)
  | Throw (err : string).
Arguments Ok {A} a.
Arguments Throw {A} err.

Definition M (A : Type) : Type := World -> result A * World.

Definition ret {A} (a : A) : M A := fun w => (Ok a, w).

Definition bind {A B} (m : M A) (k : A -> M B) : M B :=
  fun w =>
    match m w with
    | (Ok a, w') => k a w'
    | (Throw err, w') => (Throw err, w')
    end.

(** [try { m } catch (error) { handler(error) }] *)
Definition try_catch {A} (m : M A) (handler : string -> M A) : M A :=
  fun w =>
    match m w with
    | (Ok a, w') => (Ok a, w')
    | (Throw err, w') => handler err w'
    end.

Notation "'let*' x ':=' m 'in' k" := (bind m (fun x => k))
  (at level 10, x name, m at level 100, k at level 200).
Notation "'run' m 'in' k" := (bind m (fun _ => k))
  (at level 10, m at level 100, k at level 200).

Definition emit (e : io_event) : M unit := fun w => (Ok tt, with_io e w).

Definition console_log (msg : string) : M unit :=
  fun w => (Ok tt, with_console (Log msg) w).

Definition console_error (msg err : string) : M unit :=
  fun w => (Ok tt, with_console (LogError msg err) w).

(** *** The class [FirebaseAnalytics] *)

Module FirebaseAnalytics.

Definition isInitialized : M bool := fun w => (Ok (fb_initialized w), w).

(** [this.ref.set(doc)] *)
Definition ref_set (doc : Js.value) : M unit :=
  run emit (RefSet doc) in
  fun w => if remote_up w then (Ok tt, w) else (Throw "remote set failed", w).

(** [(await this.ref.once('value')).val()] *)
Definition ref_once : M (option FbData) :=
  run emit RefOnce in
  fun w =>
    if remote_up w then (Ok (remote_snapshot w), w)
    else (Throw "remote read failed", w).

(** [{ ...analytics, lastUpdated: now }].  The argument is the sanitised
    analytics object; spreading a primitive would add nothing. *)
Definition with_lastUpdated (doc : Js.value) (now : string) : Js.value :=
  match doc with
  | Js.VObject _ props =>
      Js.VObject Js.VObjectPrototype (Js.put props ("lastUpdated", Js.VStr now))
  | _ => Js.VObject Js.VObjectPrototype [("lastUpdated", Js.VStr now)]
  end.

(** [async saveAnalytics(analytics)] *)
Definition saveAnalytics (now : string) (doc : Js.value) : M unit :=
  let* init := isInitialized in
  if negb init then ret tt
  else
    try_catch
      (ref_set (with_lastUpdated doc now))
      (fun err => console_error "Firebase: Failed to save analytics:" err).

Definition num_or_zero (o : option Z) : Z :=
  match o with
  | Some n => if n =? 0 then 0 else n
  | None => 0
  end.

(** [async loadAnalytics()] *)
Definition loadAnalytics (now : string) : M (option Analytics) :=
  let* init := isInitialized in
  if negb init then ret None
  else
    try_catch
      (let* data := ref_once in
       match data with
       | None => ret None
       | Some d =>
           ret (Some
             {| serverStartTime := or_else (d_serverStartTime d) now;
                totalRequests := num_or_zero (d_totalRequests d);
                totalToolCalls := num_or_zero (d_totalToolCalls d);
                requestsByMethod := default [] (d_requestsByMethod d);
                requestsByEndpoint := default [] (d_requestsByEndpoint d);
                toolCalls := default [] (d_toolCalls d);
                recentToolCalls := default [] (d_recentToolCalls d);
                clientsByIp := default [] (d_clientsByIp d);
                clientsByUserAgent := default [] (d_clientsByUserAgent d);
                hourlyRequests := default [] (d_hourlyRequests d) |})
       end)
      (fun err =>
         run console_error "Firebase: Failed to load analytics:" err in ret None).

End FirebaseAnalytics.

(** *** The file system *)

Definition existsSync_dir : M bool :=
  run emit ExistsDir in fun w => (Ok (dir_exists w), w).

Definition mkdirSync : M unit :=
  run emit MkDir in
  fun w =>
    if disk_writable w then (Ok tt, with_dir w)
    else (Throw "EACCES: mkdir", w).

Definition ensureDataDir : M unit :=
  let* present := existsSync_dir in
  if present then ret tt
  else run mkdirSync in console_log "Created analytics data directory".

Definition existsSync_file : M bool :=
  run emit ExistsFile in
  fun w => (Ok (dir_exists w && bool_decide (is_Some (file w))), w).

(** [JSON.parse(fs.readFileSync(ANALYTICS_FILE, 'utf-8'))] *)
Definition read_and_parse : M Analytics :=
  run emit ReadFile in
  fun w =>
    match file w with
    | Some (FileJson doc) => (Ok doc, w)
    | Some FileGarbage => (Throw "SyntaxError: JSON.parse", w)
    | None => (Throw "ENOENT: open", w)
    end.

(** [fs.writeFileSync(ANALYTICS_FILE, JSON.stringify(analytics, null, 2))] *)
Definition writeFileSync (a : Analytics) : M unit :=
  run emit (WriteFile a) in
  fun w =>
    if dir_exists w && disk_writable w then (Ok tt, with_file (FileJson a) w)
    else (Throw "EACCES: open", w).

(** *** [loadAnalytics] and [saveAnalytics] of [http-server.ts] *)

(** [{ ...loaded, serverStartTime: loaded.serverStartTime || now }] *)
Definition adopt (loaded : Analytics) (now : string) : Analytics :=
  {| serverStartTime := or_else (Some (serverStartTime loaded)) now;
     totalRequests := totalRequests loaded;
     totalToolCalls := totalToolCalls loaded;
     requestsByMethod := requestsByMethod loaded;
     requestsByEndpoint := requestsByEndpoint loaded;
     toolCalls := toolCalls loaded;
     recentToolCalls := recentToolCalls loaded;
     clientsByIp := clientsByIp loaded;
     clientsByUserAgent := clientsByUserAgent loaded;
     hourlyRequests := hourlyRequests loaded |}.

(** [loadAnalytics()]: the result is the value of the variable
    [analytics] afterwards, [current] its value before. *)
Definition loadAnalytics (now : string) (current : Analytics) : M Analytics :=
  try_catch
    (let* init := FirebaseAnalytics.isInitialized in
     let* firebaseData :=
       (if init then FirebaseAnalytics.loadAnalytics now else ret None) in
     match firebaseData with
     | Some data =>
         run console_log "Loaded analytics from Firebase" in
         run console_log "Total requests, Tool calls" in
         ret data
     | None =>
         run ensureDataDir in
         let* present := existsSync_file in
         if present then
           let* loaded := read_and_parse in
           run console_log "Loaded analytics from local file" in
           run console_log "Total requests, Tool calls" in
           ret (adopt loaded now)
         else
           run console_log "No existing analytics found, starting fresh" in
           ret current
     end)
    (fun err =>
       run console_error "Failed to load analytics:" err in
       run console_log "Starting with fresh analytics" in
       ret current).

(** [saveAnalytics()] on the current value [a] of [analytics]. *)
Definition saveAnalytics (now : string) (a : Analytics) : M unit :=
  try_catch
    (let* init := FirebaseAnalytics.isInitialized in
     run (if init
          then FirebaseAnalytics.saveAnalytics now
                 (Js.sanitizeObject (to_value a))
          else ret tt) in
     run ensureDataDir in
     run writeFileSync a in
     let* init' := FirebaseAnalytics.isInitialized in
     console_log (if init' then "Saved analytics to Firebase + local backup"
                  else "Saved analytics to local file only"))
    (fun err => console_error "Failed to save analytics:" err).

End Persist.

(* ===================================================================== *)
(** ** The Express handlers and the credential-scoped server cache *)
(* ===================================================================== *)

Module Http.
Import Analytics.

(** The two defaults read from the process environment at start-up. *)
Record Config : Type := mkConfig {
  DEFAULT_PLAUSIBLE_API_URL : string;
  DEFAULT_PLAUSIBLE_API_KEY : string;
}.

(** An [McpServer] instance: the number it was allocated under (its
    identity as an object) and the credentials its client was built
    with by [createMcpServer]. *)
Record McpServer : Type := mkServer {
  srv_id : nat;
  srv_apiUrl : string;
  srv_apiKey : string;
}.

(** How the SDK calls of one request end. *)
Inductive sdk_outcome : Type :=
  | SdkOk
  | ConnectThrows
  | HandleThrows (headersSent : bool).

(** What a handler does besides updating the module state, in order. *)
Inductive effect : Type :=
  | CreateMcpServer (s : McpServer)
  | NewTransport (t : nat)
  | Connect (s : McpServer) (t : nat)
  | HandleRequest (t : nat)
  | LogRequestError
  | Respond (status : nat) (body : Js.value)
  | RespondPage (endpoint : string).

(** The module-level variables of [http-server.ts]. *)
Record State : Type := mkState {
  analytics : Analytics;
  mcpServers : gmap string McpServer;
  next_object : nat;                   (* objects allocated so far *)
}.

Definition set_analytics (a : Analytics) (st : State) : State :=
  {| analytics := a; mcpServers := mcpServers st;
     next_object := next_object st |}.

(** [createMcpServer(apiUrl, apiKey)] *)
Definition createMcpServer (apiUrl apiKey : string) (st : State)
  : McpServer * State :=
  ({| srv_id := next_object st; srv_apiUrl := apiUrl; srv_apiKey := apiKey |},
   {| analytics := analytics st; mcpServers := mcpServers st;
      next_object := S (next_object st) |}).

(** [new StreamableHTTPServerTransport({ sessionIdGenerator: undefined })] *)
Definition newTransport (st : State) : nat * State :=
  (next_object st,
   {| analytics := analytics st; mcpServers := mcpServers st;
      next_object := S (next_object st) |}).

(** [`${apiUrl}:${apiKey.substring(0, 8)}`] *)
Definition credentialsKey (apiUrl apiKey : string) : string :=
  String.append apiUrl (String.append ":" (String.substring 0 8 apiKey)).

(** Lines 653-658: get or create the server of these credentials. *)
Definition resolve (apiUrl apiKey : string) (st : State)
  : McpServer * State * list effect :=
  let key := credentialsKey apiUrl apiKey in
  match mcpServers st !! key with
  | Some mcpServer => (mcpServer, st, [])
  | None =>
      let '(mcpServer, st1) := createMcpServer apiUrl apiKey st in
      (mcpServer,
       {| analytics := analytics st1;
          mcpServers := <[key := mcpServer]> (mcpServers st1);
          next_object := next_object st1 |},
       [CreateMcpServer mcpServer])
  end.

(** [apiKey] and [apiUrl] as the handler extracts them. *)
Definition apiKey_of (cfg : Config) (req : Request) : string :=
  match truthy (query_apiKey req) with
  | Some k => k
  | None => or_else (header_apiKey req) (DEFAULT_PLAUSIBLE_API_KEY cfg)
  end.

Definition apiUrl_of (cfg : Config) (req : Request) : string :=
  match truthy (query_apiUrl req) with
  | Some u => u
  | None => or_else (header_apiUrl req) (DEFAULT_PLAUSIBLE_API_URL cfg)
  end.

(** [req.body?.method] *)
Definition mcpMethod (req : Request) : option string :=
  match body req with
  | Some b => b_method b
  | None => None
  end.

Definition discovery_methods : list string :=
  ["initialize"; "tools/list"; "notifications/initialized"].

Definition is_discovery_method (m : option string) : bool :=
  match truthy m with
  | Some s =>
      String.eqb s "initialize" || String.eqb s "tools/list"
      || String.eqb s "notifications/initialized"
  | None => false
  end.

(** [req.body && req.body.method === 'tools/call' && req.body.params?.name] *)
Definition tool_call_name (req : Request) : option string :=
  match body req with
  | Some b =>
      match b_method b with
      | Some m => if String.eqb m "tools/call" then truthy (b_params_name b)
                  else None
      | None => None
      end
  | None => None
  end.

Definition missing_key_body : Js.value :=
  Js.VObject Js.VObjectPrototype
    [("error", Js.VStr "Missing Plausible API key");
     ("message", Js.VStr "Provide your API key via query parameter (?apiKey=YOUR_KEY), header (X-Plausible-Api-Key), or environment variable (PLAUSIBLE_API_KEY)");
     ("example", Js.VStr "/mcp?apiKey=YOUR_PLAUSIBLE_API_KEY")].

Definition internal_error_body : Js.value :=
  Js.VObject Js.VObjectPrototype
    [("jsonrpc", Js.VStr "2.0");
     ("error", Js.VObject Js.VObjectPrototype
                 [("code", Js.VNum (-32603));
                  ("message", Js.VStr "Internal server error")]);
     ("id", Js.VNull)].

(** [await server.connect(transport); await transport.handleRequest(...)]
    inside the handler's [try], with its [catch]. *)
Definition connect_and_handle (sdk : sdk_outcome) (server : McpServer) (t : nat)
  : list effect :=
  match sdk with
  | SdkOk => [Connect server t; HandleRequest t]
  | ConnectThrows =>
      [Connect server t; LogRequestError; Respond 500 internal_error_body]
  | HandleThrows headersSent =>
      [Connect server t; HandleRequest t; LogRequestError]
      ++ (if headersSent then [] else [Respond 500 internal_error_body])
  end.

(** [app.all('/mcp', ...)].  [t_req] and [t_tool] are the two clock
    readings of [trackRequest] and [trackToolCall].  The rewrite of the
    [Accept] header and the [close] listener only concern the SDK. *)
Definition mcp_handler (cfg : Config) (sdk : sdk_outcome)
    (t_req t_tool : string) (req : Request) (st : State)
  : State * list effect :=
  let a1 := trackRequest t_req req "/mcp" (analytics st) in
  let a2 := match tool_call_name req with
            | Some name => trackToolCall t_tool name req a1
            | None => a1
            end in
  let st := set_analytics a2 st in
  let apiKey := apiKey_of cfg req in
  let apiUrl := apiUrl_of cfg req in
  let hasCredentials := negb (String.eqb apiKey "") in
  let isDiscoveryRequest :=
    negb hasCredentials && is_discovery_method (mcpMethod req) in
  if isDiscoveryRequest then
    let '(demoServer, st) := createMcpServer apiUrl "demo-key" st in
    let '(transport, st) := newTransport st in
    (st, [CreateMcpServer demoServer; NewTransport transport]
         ++ connect_and_handle sdk demoServer transport)
  else if String.eqb apiKey "" then
    (st, [Respond 400 missing_key_body])
  else
    let '(mcpServer, st, created) := resolve apiUrl apiKey st in
    let '(transport, st) := newTransport st in
    (st, created ++ [NewTransport transport]
         ++ connect_and_handle sdk mcpServer transport).

(** The [GET] endpoints ([/], [/health], [/analytics],
    [/analytics/tools], [/analytics/dashboard]) record the request and
    answer with a page built from the state. *)
Definition get_handler (now : string) (endpoint : string) (req : Request)
    (st : State) : State * list effect :=
  (set_analytics (trackRequest now req endpoint (analytics st)) st,
   [RespondPage endpoint]).

(** [if (importData.x) { total += importData.x }] for a numeric member. *)
Definition add_imported (total : Z) (imported : option Z) : Z :=
  match imported with
  | Some n => if n =? 0 then total else total + n
  | None => total
  end.

Definition with_totals (requests calls : Z) (a : Analytics) : Analytics :=
  {| serverStartTime := serverStartTime a;
     totalRequests := requests;
     totalToolCalls := calls;
     requestsByMethod := requestsByMethod a;
     requestsByEndpoint := requestsByEndpoint a;
     toolCalls := toolCalls a;
     recentToolCalls := recentToolCalls a;
     clientsByIp := clientsByIp a;
     clientsByUserAgent := clientsByUserAgent a;
     hourlyRequests := hourlyRequests a |}.

Definition import_ok_body (a : Analytics) : Js.value :=
  Js.VObject Js.VObjectPrototype
    [("message", Js.VStr "Analytics imported successfully");
     ("currentStats", Js.VObject Js.VObjectPrototype
                        [("totalRequests", Js.VNum (totalRequests a));
                         ("totalToolCalls", Js.VNum (totalToolCalls a))])].

Definition import_failed_body : Js.value :=
  Js.VObject Js.VObjectPrototype
    [("error", Js.VStr "Failed to import analytics");
     ("details", Js.VStr "TypeError: Cannot read properties of undefined (reading 'totalRequests')")].

(** [app.post('/analytics/import', ...)].  A request without a parsed
    body makes the first member access throw.  The save that the handler
    starts is run to its end on the state it was started with. *)
Definition import_handler (now now_save : string) (req : Request)
    (st : State) (w : Persist.World)
  : State * Persist.World * list effect :=
  let a1 := trackRequest now req "/analytics/import" (analytics st) in
  match body req with
  | None => (set_analytics a1 st, w, [Respond 400 import_failed_body])
  | Some importData =>
      let a2 :=
        with_totals
          (add_imported (totalRequests a1) (b_totalRequests importData))
          (add_imported (totalToolCalls a1) (b_totalToolCalls importData))
          a1 in
      (set_analytics a2 st, snd (Persist.saveAnalytics now_save a2 w),
       [Respond 200 (import_ok_body a2)])
  end.

(** An imported total that is absent or not negative. *)
Definition nonnegative (o : option Z) : bool :=
  match o with
  | Some n => 0 <=? n
  | None => true
  end.

(** One request to the server. *)
Inductive call : Type :=
  | CallMcp (sdk : sdk_outcome) (t_req t_tool : string) (req : Request)
  | CallGet (now : string) (endpoint : string) (req : Request)
  | CallImport (now now_save : string) (req : Request).

(** The request is not an import of a negative total. *)
Definition imports_nonnegative (c : call) : bool :=
  match c with
  | CallImport _ _ req =>
      match body req with
      | Some b =>
          nonnegative (b_totalRequests b) && nonnegative (b_totalToolCalls b)
      | None => true
      end
  | _ => true
  end.

Definition handle (cfg : Config) (c : call) (sw : State * Persist.World)
  : State * Persist.World * list effect :=
  let '(st, w) := sw in
  match c with
  | CallMcp sdk t_req t_tool req =>
      let '(st', effs) := mcp_handler cfg sdk t_req t_tool req st in
      (st', w, effs)
  | CallGet now endpoint req =>
      let '(st', effs) := get_handler now endpoint req st in
      (st', w, effs)
  | CallImport now now_save req => import_handler now now_save req st w
  end.

(** The state after a sequence of requests, handled one after the other. *)
Definition handle_all (cfg : Config) (cs : list call)
    (sw : State * Persist.World) : State * Persist.World :=
  fold_left (fun sw c => fst (handle cfg c sw)) cs sw.

(** The server a handler run connected to a transport, if any. *)
Fixpoint connected_server (effs : list effect) : option McpServer :=
  match effs with
  | [] => None
  | Connect s _ :: _ => Some s
  | _ :: rest => connected_server rest
  end.

(** Every cached server was allocated before the next free number. *)
Definition cache_allocated (st : State) : Prop :=
  forall k s, mcpServers st !! k = Some s -> (srv_id s < next_object st)%nat.

Definition constructs_nothing (effs : list effect) : bool :=
  forallb (fun e => match e with
                    | CreateMcpServer _ | NewTransport _
                    | Connect _ _ | HandleRequest _ => false
                    | _ => true
                    end) effs.

End Http.

(* ===================================================================== *)
(** ** Concrete inputs used in the examples *)
(* ===================================================================== *)

Module Samples.
Import Js Analytics Persist Http.

Definition obj (props : props_t) : value := VObject VObjectPrototype props.

Definition nested : value :=
  obj [("a/b", VNum 1);
       ("hosts", VArray [obj [("10.0.0.1", VNum 3)]; VStr "x/y"]);
       ("a.b#c", obj [("k[0]", VNull)])].

Definition colliding : value := obj [("a/b", VNum 1); ("a_b", VNum 2)].

Definition proto_twice : value :=
  obj [("$_proto__", VNull); ("#_proto__", VNum 1)].

Definition sample_request : Request :=
  {| method := "POST"; x_forwarded_for := Some "203.0.113.7, 10.0.0.1";
     user_agent := Some "inspector/1.0"; ip := Some "10.0.0.1";
     query_apiKey := None; query_apiUrl := None;
     header_apiKey := None; header_apiUrl := None; body := None |}.

(** [n] tool calls whose time stamps are the characters from [from] on. *)
Fixpoint numbered_calls (n : nat) (from : nat)
  : list (string * string * Request) :=
  match n with
  | O => []
  | S n' =>
      (String (ascii_of_nat from) EmptyString, "query_stats", sample_request)
      :: numbered_calls n' (S from)
  end.

Definition local_only : World :=
  {| fb_initialized := false; remote_up := false; remote_snapshot := None;
     dir_exists := true; disk_writable := true; file := None;
     io := []; console := [] |}.



Definition example_config : Config :=
  {| DEFAULT_PLAUSIBLE_API_URL := "https://plausible.io";
     DEFAULT_PLAUSIBLE_API_KEY := "" |}.

Definition empty_state : State :=
  {| analytics := initial "2026-01-01T09:00:00.000Z";
     mcpServers := ∅; next_object := 0 |}.

Definition request_with (key : option string) (b : option Body) : Request :=
  {| method := "POST"; x_forwarded_for := None;
     user_agent := Some "inspector/1.0"; ip := Some "198.51.100.4";
     query_apiKey := key; query_apiUrl := None;
     header_apiKey := None; header_apiUrl := None; body := b |}.

Definition rpc (m : string) (name : option string) : Body :=
  {| b_method := Some m; b_params_name := name;
     b_totalRequests := None; b_totalToolCalls := None |}.

Definition import_request (requests calls : option Z) : Request :=
  request_with None
    (Some {| b_method := None; b_params_name := None;
             b_totalRequests := requests; b_totalToolCalls := calls |}).

End Samples.

(* ===================================================================== *)
(** ** Facts about [sanitizeObject] *)
(* ===================================================================== *)

Module JsFacts.
Import Js.

Lemma has_char_cons c d s :
  has_char c (String d s) = (Ascii.eqb c d || has_char c s)%bool.
Proof. reflexivity. Qed.

Lemma sanitizeKey_cons c k :
  sanitizeKey (String c k)
  = String (if special c then "_"%char else c) (sanitizeKey k).
Proof. reflexivity. Qed.

Lemma sanitizeKey_no_special c k :
  special c = true -> has_char c (sanitizeKey k) = false.
Proof.
  intros Hc. induction k as [|d k IH]; [reflexivity|].
  rewrite sanitizeKey_cons, has_char_cons, IH, orb_false_r.
  apply not_true_is_false. intros E. apply Ascii.eqb_eq in E. subst c.
  destruct (special d) eqn:Hd; [discriminate Hc | congruence].
Qed.

Lemma sanitizeKey_idem k : sanitizeKey (sanitizeKey k) = sanitizeKey k.
Proof.
  induction k as [|d k IH]; [reflexivity|].
  rewrite !sanitizeKey_cons, IH.
  destruct (special d) eqn:Hd; [reflexivity | now rewrite Hd].
Qed.

Lemma has_key_existsb k props :
  has_key k props = existsb (String.eqb k) (List.map fst props).
Proof.
  induction props as [|[k' v'] r IH]; [reflexivity|]. simpl. now rewrite IH.
Qed.

Lemma distinct_keys_nodupb props :
  distinct_keys props = nodupb (List.map fst props).
Proof.
  induction props as [|[k' v'] r IH]; [reflexivity|].
  simpl. now rewrite IH, has_key_existsb.
Qed.

Lemma has_key_update k' k v props :
  has_key k' (update_key k v props) = has_key k' props.
Proof.
  induction props as [|[k0 v0] r IH]; [reflexivity|]. simpl.
  destruct (String.eqb k k0); simpl; [reflexivity | now rewrite IH].
Qed.

Lemma has_key_app k' props more :
  has_key k' (props ++ more) = (has_key k' props || has_key k' more)%bool.
Proof.
  induction props as [|[k0 v0] r IH]; [reflexivity|]. simpl.
  now rewrite IH, orb_assoc.
Qed.

Lemma js_set_plain p props k v :
  k <> "__proto__" -> js_set (p, props) k v = (p, put props (k, v)).
Proof.
  intros Hk. unfold js_set, put. simpl.
  destruct (has_key k props); [reflexivity|].
  apply String.eqb_neq in Hk. now rewrite Hk.
Qed.

Lemma fold_js_set_plain l : forall p acc,
  Forall (fun kv => fst kv <> "__proto__") l ->
  fold_left (fun o kv => js_set o (fst kv) (snd kv)) l (p, acc)
  = (p, fold_left put l acc).
Proof.
  induction l as [|[k v] l IH]; intros p acc Hl; [reflexivity|].
  inversion Hl as [|? ? Hk Hl']; subst. cbn [fold_left fst snd] in *.
  rewrite js_set_plain by assumption. now apply IH.
Qed.

Lemma fold_left_map_arg {A B C} (f : A -> C -> A) (g : B -> C) l : forall a,
  fold_left (fun a x => f a (g x)) l a = fold_left f (List.map g l) a.
Proof. induction l as [|x l IH]; intros a; simpl; [reflexivity | apply IH]. Qed.

Lemma sanitizeObject_object p props :
  sanitizeObject (VObject p props)
  = to_object (fold_left (fun o kv => js_set o (fst kv) (snd kv))
                 (List.map sanitize_entry props) (VObjectPrototype, [])).
Proof.
  simpl. f_equal.
  apply (fold_left_map_arg (fun o kv => js_set o (fst kv) (snd kv)) sanitize_entry).
Qed.

Lemma distinct_keys_update k v props :
  distinct_keys (update_key k v props) = distinct_keys props.
Proof.
  induction props as [|[k0 v0] r IH]; [reflexivity|]. simpl.
  destruct (String.eqb k k0); simpl; [reflexivity|].
  now rewrite has_key_update, IH.
Qed.

Lemma distinct_keys_snoc k v props :
  has_key k props = false ->
  distinct_keys (props ++ [(k, v)]) = distinct_keys props.
Proof.
  induction props as [|[k0 v0] r IH]; simpl; intros Hk; [reflexivity|].
  apply orb_false_iff in Hk as [Hk0 Hr].
  rewrite has_key_app, IH by assumption. simpl.
  rewrite String.eqb_sym, Hk0. now rewrite !orb_false_r.
Qed.

Lemma distinct_keys_put props kv :
  distinct_keys (put props kv) = distinct_keys props.
Proof.
  destruct kv as [k v]. unfold put. simpl.
  destruct (has_key k props) eqn:Hk.
  - apply distinct_keys_update.
  - now apply distinct_keys_snoc.
Qed.

Lemma distinct_keys_fold l : forall acc,
  distinct_keys (fold_left put l acc) = distinct_keys acc.
Proof.
  induction l as [|kv l IH]; intros acc; simpl; [reflexivity|].
  now rewrite IH, distinct_keys_put.
Qed.

Lemma Forall_update (Q : string * value -> Prop) k v props :
  Q (k, v) -> Forall Q props -> Forall Q (update_key k v props).
Proof.
  intros Hkv Hp. induction Hp as [|[k0 v0] r H0 Hr IH]; [constructor|].
  simpl. destruct (String.eqb k k0) eqn:E.
  - apply String.eqb_eq in E. subst k0. now constructor.
  - now constructor.
Qed.

Lemma Forall_put (Q : string * value -> Prop) props kv :
  Q kv -> Forall Q props -> Forall Q (put props kv).
Proof.
  destruct kv as [k v]. intros Hkv Hp. unfold put. simpl.
  destruct (has_key k props).
  - now apply Forall_update.
  - apply List.Forall_app. split; [assumption | now constructor].
Qed.

Lemma Forall_fold_put (Q : string * value -> Prop) l : forall acc,
  Forall Q l -> Forall Q acc -> Forall Q (fold_left put l acc).
Proof.
  induction l as [|kv l IH]; intros acc Hl Hacc; simpl; [assumption|].
  inversion Hl; subst. apply IH; [assumption | now apply Forall_put].
Qed.

Lemma fold_put_distinct l : forall acc,
  distinct_keys (acc ++ l) = true -> fold_left put l acc = (acc ++ l)%list.
Proof.
  induction l as [|[k v] l IH]; intros acc Hd; simpl.
  - now rewrite app_nil_r.
  - assert (Hk : has_key k acc = false).
    { clear IH. induction acc as [|[k0 v0] r IHr]; [reflexivity|].
      simpl in Hd. apply andb_true_iff in Hd as [Hn Hd].
      apply negb_true_iff in Hn. rewrite has_key_app in Hn.
      apply orb_false_iff in Hn as [_ Hn]. simpl in Hn.
      apply orb_false_iff in Hn as [Hn _].
      simpl. rewrite String.eqb_sym, Hn. simpl. now apply IHr. }
    unfold put at 2. simpl. rewrite Hk.
    rewrite IH; rewrite <- app_assoc; [reflexivity | exact Hd].
Qed.


Lemma forallb_Forall_iff {A} (f : A -> bool) l :
  forallb f l = true <-> Forall (fun x => f x = true) l.
Proof.
  induction l as [|x l IH]; simpl.
  - split; [constructor | reflexivity].
  - rewrite andb_true_iff, IH. split.
    + intros [? ?]. now constructor.
    + intros H. inversion H; subst. now split.
Qed.

Lemma all_keys_object P p props :
  all_keys P (VObject p props) = forallb (entry_ok P) props.
Proof. reflexivity. Qed.

Lemma js_set_entries_ok P o k v :
  entry_ok P (k, v) = true ->
  forallb (entry_ok P) (snd o) = true ->
  forallb (entry_ok P) (snd (js_set o k v)) = true.
Proof.
  destruct o as [p props]. intros Hkv Ho. unfold js_set.
  destruct (has_key k props).
  - simpl in *. apply forallb_Forall_iff. apply Forall_update; [exact Hkv|].
    now apply forallb_Forall_iff.
  - destruct (String.eqb k "__proto__" && proto_setter_reachable p).
    + destruct (is_object_or_null v); exact Ho.
    + simpl in *. rewrite forallb_app, Ho. simpl. now rewrite Hkv.
Qed.

Lemma fold_js_set_entries_ok P l : forall o,
  Forall (fun kv => entry_ok P kv = true) l ->
  forallb (entry_ok P) (snd o) = true ->
  forallb (entry_ok P)
    (snd (fold_left (fun o kv => js_set o (fst kv) (snd kv)) l o)) = true.
Proof.
  induction l as [|[k v] l IH]; intros o Hl Ho; [exact Ho|].
  inversion Hl; subst. cbn [fold_left fst snd].
  apply IH; [assumption|]. now apply js_set_entries_ok.
Qed.

(** Whatever the input, no key of the result holds one of the six
    characters. *)
Lemma sanitizeObject_keys_clean c :
  special c = true ->
  forall v, all_keys (fun k => negb (has_char c k)) (sanitizeObject v) = true.
Proof.
  intros Hc. induction v as [| | | | | |items IH|p props _ IH]
    using value_nested_ind; try reflexivity.
  - simpl. apply forallb_Forall_iff. induction IH; simpl; now constructor.
  - rewrite sanitizeObject_object. unfold to_object. rewrite all_keys_object.
    apply fold_js_set_entries_ok; [|reflexivity].
    induction IH as [|[k v] r Hv _ IHr]; simpl; constructor; [|exact IHr].
    unfold entry_ok, sanitize_entry. simpl in *.
    now rewrite sanitizeKey_no_special, Hv.
Qed.

Lemma sanitizeObject_fixed p props :
  Forall fixed_entry props -> distinct_keys props = true ->
  sanitizeObject (VObject p props) = VObject VObjectPrototype props.
Proof.
  intros Hf Hd. rewrite sanitizeObject_object.
  assert (Hm : List.map sanitize_entry props = props).
  { clear Hd. induction Hf as [|[k v] r (Hk & Hv & _) _ IH]; [reflexivity|].
    simpl in *. unfold sanitize_entry at 1. simpl. now rewrite Hk, Hv, IH. }
  rewrite Hm, fold_js_set_plain.
  - rewrite fold_put_distinct by exact Hd. reflexivity.
  - clear Hd Hm. induction Hf as [|kv r (_ & _ & Hk) _ IH]; now constructor.
Qed.

Lemma proto_free_object p props :
  proto_free (VObject p props) = true ->
  Forall (fun kv => sanitizeKey (fst kv) <> "__proto__"
                    /\ proto_free (snd kv) = true) props.
Proof.
  unfold proto_free. simpl. intros H. apply forallb_Forall_iff in H.
  induction H as [|kv r Hkv _ IH]; constructor; [|exact IH].
  apply andb_true_iff in Hkv as [Hk Hv]. split; [|exact Hv].
  apply negb_true_iff in Hk. now apply String.eqb_neq.
Qed.

(** Without a key that becomes [__proto__], a second pass changes
    nothing. *)
Lemma sanitizeObject_idempotent_proto_free v :
  proto_free v = true -> sanitizeObject (sanitizeObject v) = sanitizeObject v.
Proof.
  induction v as [| | | | | |items IH|p props _ IH]
    using value_nested_ind; intros Hpf; try reflexivity.
  - simpl. f_equal. rewrite List.map_map.
    unfold proto_free in Hpf. simpl in Hpf. apply forallb_Forall_iff in Hpf.
    induction IH as [|x r Hx _ IHr]; [reflexivity|].
    inversion Hpf; subst. simpl. f_equal; [now apply Hx | now apply IHr].
  - apply proto_free_object in Hpf.
    assert (Hl : Forall fixed_entry (List.map sanitize_entry props)).
    { induction IH as [|[k v] r Hv _ IHr]; simpl; [constructor|].
      inversion Hpf as [|? ? [Hk Hpv] Hr]; subst. simpl in *.
      constructor; [|now apply IHr].
      unfold fixed_entry, sanitize_entry. simpl.
      repeat split; [apply sanitizeKey_idem | now apply Hv | exact Hk]. }
    rewrite sanitizeObject_object at 2. rewrite sanitizeObject_object at 1.
    rewrite fold_js_set_plain.
    + unfold to_object. cbn [fst snd]. apply sanitizeObject_fixed.
      * apply Forall_fold_put; [exact Hl | constructor].
      * now rewrite distinct_keys_fold.
    + clear IH Hpf. induction Hl as [|kv r (_ & _ & Hk) _ IHr]; now constructor.
Qed.

Lemma collision_free_object p props :
  collision_free (VObject p props) = true ->
  distinct_keys (List.map sanitize_entry props) = true
  /\ Forall (fun kv => collision_free (snd kv) = true) props.
Proof.
  simpl. intros H. apply andb_true_iff in H as [Hn Hf]. split.
  - rewrite distinct_keys_nodupb, List.map_map. exact Hn.
  - now apply forallb_Forall_iff in Hf.
Qed.

(** Without collisions and without [__proto__], only the keys change. *)
Lemma sanitizeObject_renames v :
  proto_free v = true -> collision_free v = true ->
  sanitizeObject v = rename_keys v.
Proof.
  induction v as [| | | | | |items IH|p props _ IH]
    using value_nested_ind; intros Hpf Hcf; try reflexivity.
  - simpl. f_equal.
    unfold proto_free in Hpf. simpl in Hpf, Hcf.
    apply forallb_Forall_iff in Hpf. apply forallb_Forall_iff in Hcf.
    induction IH as [|x r Hx _ IHr]; [reflexivity|].
    inversion Hpf; inversion Hcf; subst. simpl.
    f_equal; [now apply Hx | now apply IHr].
  - apply proto_free_object in Hpf.
    apply collision_free_object in Hcf as [Hd Hcf].
    rewrite sanitizeObject_object, fold_js_set_plain.
    + rewrite fold_put_distinct by exact Hd. unfold to_object. simpl.
      f_equal. clear Hd.
      induction IH as [|[k v] r Hv _ IHr]; [reflexivity|].
      inversion Hpf as [|? ? [Hk Hpv] Hr]; inversion Hcf; subst. simpl in *.
      unfold sanitize_entry at 1. simpl. f_equal; [|now apply IHr].
      f_equal. now apply Hv.
    + clear IH Hcf Hd. induction Hpf as [|kv r [Hk _] _ IHr]; now constructor.
Qed.

Lemma leaves_rename_keys v : leaves (rename_keys v) = leaves v.
Proof.
  induction v as [| | | | | |items IH|p props _ IH]
    using value_nested_ind; try reflexivity.
  - simpl. induction IH as [|x r Hx _ IHr]; [reflexivity|].
    simpl. now rewrite Hx, IHr.
  - simpl. induction IH as [|[k v] r Hv _ IHr]; [reflexivity|].
    simpl in *. now rewrite Hv, IHr.
Qed.

End JsFacts.

(* ===================================================================== *)
(** ** C4: what [sanitizeObject] guarantees *)
(* ===================================================================== *)

Module SanitizeClaims.
Import Js JsFacts Samples.

(** C4 as stated does not hold of the code.  Two keys that sanitise to
    the same key collide and the earlier value is lost: the mapping with
    keys [a/b] (value 1) and [a_b] (value 2) becomes the mapping with the
    single key [a_b] and value 2.  And a second pass is not always the
    identity: in the mapping with keys [$_proto__] (value null) and
    [#_proto__] (value 1) the first assignment to [__proto__] cuts the
    prototype chain, so the second one creates an own property
    [__proto__], which the next pass drops. *)
Lemma sanitizeObject_counterexample :
  (let input := colliding in
   all_keys (fun k => negb (has_char "/" k)) input = false
   /\ sanitizeObject input = obj [("a_b", VNum 2)]
   /\ In (VNum 1) (leaves input)
   /\ ~ In (VNum 1) (leaves (sanitizeObject input)))
  /\ (let input := proto_twice in
      sanitizeObject input = VObject VNull [("__proto__", VNum 1)]
      /\ sanitizeObject (sanitizeObject input) = obj []
      /\ sanitizeObject (sanitizeObject input) <> sanitizeObject input).
Proof.
  split; cbv zeta.
  - repeat split; try reflexivity.
    + left; reflexivity.
    + vm_compute. intros [H|[]]. discriminate H.
  - repeat split; try reflexivity. vm_compute. discriminate.
Qed.

(** C4 (amended).  For every value: no key of the result, at any depth,
    contains one of [. # $ / [ ]].  For every value in which no key is
    turned into [__proto__]: a second pass returns the result of the
    first; and if moreover the sanitised keys of each mapping are pairwise
    different, the result is the input with each key replaced by its
    sanitised form, entries in the same order and the same primitive
    values at the leaves. *)
Theorem sanitizeObject_amended :
  (forall v c, special c = true ->
     all_keys (fun k => negb (has_char c k)) (sanitizeObject v) = true)
  /\ (forall v, proto_free v = true -> collision_free v = true ->
        sanitizeObject v = rename_keys v
        /\ leaves (sanitizeObject v) = leaves v)
  /\ (forall v, proto_free v = true ->
        sanitizeObject (sanitizeObject v) = sanitizeObject v).
Proof.
  split; [|split].
  - intros v c Hc. now apply sanitizeObject_keys_clean.
  - intros v Hp Hc. pose proof (sanitizeObject_renames v Hp Hc) as E.
    split; [exact E|]. rewrite E. apply leaves_rename_keys.
  - intros v Hp. now apply sanitizeObject_idempotent_proto_free.
Qed.

Lemma sanitizeObject_amended_witness :
  all_keys (fun k => negb (has_char "/" k)) (sanitizeObject nested) = true
  /\ sanitizeObject nested = rename_keys nested
  /\ leaves (sanitizeObject nested) = leaves nested
  /\ sanitizeObject (sanitizeObject nested) = sanitizeObject nested.
Proof.
  destruct sanitizeObject_amended as (Hclean & Hren & Hidem).
  split; [apply Hclean; reflexivity|].
  split; [apply Hren; reflexivity|].
  split; [apply Hren; reflexivity|].
  apply Hidem; reflexivity.
Defined.

End SanitizeClaims.

(* ===================================================================== *)
(** ** C2, C3: the analytics recorder *)
(* ===================================================================== *)

Module RecorderClaims.
Import Analytics Samples.

(** *** Counter objects *)

Lemma get_or_zero_default k m : get_or_zero k m = default 0 (get k m).
Proof.
  unfold get_or_zero. destruct (get k m) as [n|]; [|reflexivity].
  simpl. destruct (Z.eqb_spec n 0); congruence.
Qed.

Lemma total_set k n m : total (set k n m) = total m + n - default 0 (get k m).
Proof.
  induction m as [|[k' n'] rest IH]; simpl.
  - unfold total. simpl. lia.
  - destruct (String.eqb k k'); unfold total in *; simpl in *; lia.
Qed.

Lemma total_bump k m : total (bump k m) = total m + 1.
Proof. unfold bump. rewrite total_set, get_or_zero_default. lia. Qed.

Lemma trackRequests_totals calls : forall a,
  totalRequests (trackRequests calls a)
  = totalRequests a + Z.of_nat (length calls)
  /\ total (requestsByMethod (trackRequests calls a))
     = total (requestsByMethod a) + Z.of_nat (length calls).
Proof.
  induction calls as [|[[now req] endpoint] calls IH]; intros a.
  - simpl. lia.
  - change (trackRequests (((now, req), endpoint) :: calls) a)
      with (trackRequests calls (trackRequest now req endpoint a)).
    destruct (IH (trackRequest now req endpoint a)) as [E1 E2].
    rewrite E1, E2. cbn [trackRequest totalRequests requestsByMethod].
    rewrite total_bump. cbn [length]. lia.
Qed.

(** C3.  After any sequence of N [trackRequest] calls on the initial
    (all-zero) analytics object, [totalRequests] is N and the sum of the
    values of [requestsByMethod] is N. *)
Theorem trackRequest_counts_every_request :
  forall (start : string) (calls : list (string * Request * string)),
    let a := trackRequests calls (initial start) in
    totalRequests a = Z.of_nat (length calls)
    /\ total (requestsByMethod a) = Z.of_nat (length calls).
Proof.
  intros start calls a. subst a.
  destruct (trackRequests_totals calls (initial start)) as [E1 E2].
  rewrite E1, E2. simpl. unfold total. simpl. lia.
Qed.

(** *** The recent-calls log *)

Lemma push_recent_firstn c recent :
  (length recent <= MAX_RECENT_CALLS)%nat ->
  push_recent c recent = firstn MAX_RECENT_CALLS (c :: recent).
Proof.
  intros Hlen. unfold push_recent. cbv zeta.
  destruct (Nat.ltb_spec MAX_RECENT_CALLS (length (c :: recent))) as [Hgt|Hle].
  - rewrite removelast_firstn_len. f_equal. simpl in *. lia.
  - symmetry. apply firstn_all2. exact Hle.
Qed.

Lemma firstn_app_firstn {A} n (l1 l2 : list A) :
  firstn n (l1 ++ firstn n l2) = firstn n (l1 ++ l2).
Proof.
  rewrite !firstn_app, firstn_firstn. do 2 f_equal. lia.
Qed.

Lemma trackToolCall_recent now toolName req a :
  recentToolCalls (trackToolCall now toolName req a)
  = push_recent (record_of (now, toolName, req)) (recentToolCalls a).
Proof. reflexivity. Qed.

Lemma trackToolCalls_recent calls : forall a,
  (length (recentToolCalls a) <= MAX_RECENT_CALLS)%nat ->
  recentToolCalls (trackToolCalls calls a)
  = firstn MAX_RECENT_CALLS
      (rev (List.map record_of calls) ++ recentToolCalls a).
Proof.
  induction calls as [|[[now toolName] req] calls IH]; intros a Hlen.
  - simpl. symmetry. apply firstn_all2. exact Hlen.
  - change (trackToolCalls (((now, toolName), req) :: calls) a)
      with (trackToolCalls calls (trackToolCall now toolName req a)).
    assert (Hstep : recentToolCalls (trackToolCall now toolName req a)
                    = firstn MAX_RECENT_CALLS
                        (record_of (now, toolName, req) :: recentToolCalls a)).
    { rewrite trackToolCall_recent. now apply push_recent_firstn. }
    rewrite IH.
    + rewrite Hstep, firstn_app_firstn. cbn [List.map rev].
      now rewrite <- app_assoc.
    + rewrite Hstep. rewrite length_firstn. lia.
Qed.

(** C2.  Starting from an empty log, after any sequence of
    [trackToolCall] calls the log holds at most 100 entries and is the
    sequence of recorded calls, newest first, cut after 100.  After 101
    calls it is exactly the records of calls 2 to 101, newest first: its
    head is the 101st call, and the record of the 1st call is no longer
    in it (unless a later call left an equal record). *)
Theorem recentToolCalls_bounded_newest_first :
  (forall calls a,
      recentToolCalls a = [] ->
      let log := recentToolCalls (trackToolCalls calls a) in
      (length log <= 100)%nat
      /\ log = firstn 100 (rev (List.map record_of calls)))
  /\ (forall first rest a,
        recentToolCalls a = [] ->
        length rest = 100%nat ->
        let log := recentToolCalls (trackToolCalls (first :: rest) a) in
        log = rev (List.map record_of rest)
        /\ hd_error log = Some (record_of (List.last rest first))
        /\ (~ In (record_of first) (List.map record_of rest) ->
            ~ In (record_of first) log)).
Proof.
  assert (Hseq : forall calls a, recentToolCalls a = [] ->
            recentToolCalls (trackToolCalls calls a)
            = firstn 100 (rev (List.map record_of calls))).
  { intros calls a Ha. rewrite trackToolCalls_recent.
    - rewrite Ha, app_nil_r. reflexivity.
    - rewrite Ha. simpl. unfold MAX_RECENT_CALLS. lia. }
  split.
  - intros calls a Ha log. subst log. rewrite (Hseq calls a Ha).
    split; [|reflexivity]. rewrite length_firstn. lia.
  - intros first rest a Ha Hlen log. subst log. rewrite (Hseq _ a Ha).
    cbn [List.map rev].
    assert (Hcut : firstn 100 (rev (List.map record_of rest) ++ [record_of first])
                   = rev (List.map record_of rest)).
    { rewrite firstn_app.
      assert (Hl : length (rev (List.map record_of rest)) = 100%nat)
        by now rewrite length_rev, length_map.
      rewrite Hl. simpl. rewrite app_nil_r. apply firstn_all2. lia. }
    rewrite Hcut. split; [reflexivity|]. split.
    + destruct rest as [|r0 rest'] using rev_ind; [discriminate Hlen|].
      rewrite List.last_last, List.map_app, rev_app_distr. reflexivity.
    + intros Hnot Hin. apply Hnot. now apply in_rev.
Qed.

Lemma recentToolCalls_bounded_newest_first_witness :
  let first := ("A", "query_stats", sample_request) in
  let rest := numbered_calls 100 66 in
  let log := recentToolCalls (trackToolCalls (first :: rest) (initial "start")) in
  (length log <= 100)%nat
  /\ log = rev (List.map record_of rest)
  /\ hd_error log = Some (record_of (List.last rest first)).
Proof.
  destruct recentToolCalls_bounded_newest_first as [Hbound Hevict].
  intros first rest log. split.
  - apply (Hbound (first :: rest) (initial "start")). reflexivity.
  - destruct (Hevict first rest (initial "start")) as (H1 & H2 & _);
      [reflexivity | reflexivity | ].
    split; [exact H1 | exact H2].
Defined.

End RecorderClaims.

(* ===================================================================== *)
(** ** C5, C9: persistence *)
(* ===================================================================== *)

Module PersistClaims.
Import Analytics Persist Samples.










(** The start time the server adopts from a file is never empty, given
    that a clock reading is not. *)
Lemma adopt_start_time loaded now :
  now <> "" -> serverStartTime (adopt loaded now) <> "".
Proof.
  intros Hn. unfold adopt. cbn.
  destruct (serverStartTime loaded) as [|c s]; [exact Hn | discriminate].
Qed.

(** Neither is the one adopted from the remote store. *)
Lemma remote_start_time now w a w' :
  now <> "" ->
  FirebaseAnalytics.loadAnalytics now w = (Ok (Some a), w') ->
  serverStartTime a <> "".
Proof.
  intros Hn. destruct w as [init up snap dir wr f i c].
  unfold FirebaseAnalytics.loadAnalytics, try_catch, bind,
    FirebaseAnalytics.isInitialized, FirebaseAnalytics.ref_once.
  destruct init, up; cbn; try discriminate.
  destruct snap as [d|]; cbn; [|discriminate].
  intros H. inversion H; subst. cbn.
  destruct (d_serverStartTime d) as [[|ch s]|]; cbn;
    [exact Hn | discriminate | exact Hn].
Qed.






End PersistClaims.

(* ===================================================================== *)
(** ** C1, C6, C7, C8, C10: the handlers *)
(* ===================================================================== *)

Module HttpClaims.
Import Analytics Http Samples.

Lemma connected_server_connect_and_handle sdk s t :
  connected_server (connect_and_handle sdk s t) = Some s.
Proof. destruct sdk; reflexivity. Qed.

Lemma eqb_empty_false s : s <> "" -> String.eqb s "" = false.
Proof. intros H. now apply String.eqb_neq. Qed.

(** With an API key the handler goes through the cache. *)
Lemma mcp_handler_with_key cfg sdk t_req t_tool req st :
  apiKey_of cfg req <> "" ->
  mcp_handler cfg sdk t_req t_tool req st
  = let a1 := trackRequest t_req req "/mcp" (analytics st) in
    let a2 := match tool_call_name req with
              | Some name => trackToolCall t_tool name req a1
              | None => a1
              end in
    let '(mcpServer, st1, created) :=
      resolve (apiUrl_of cfg req) (apiKey_of cfg req) (set_analytics a2 st) in
    let '(transport, st2) := newTransport st1 in
    (st2, created ++ [NewTransport transport]
          ++ connect_and_handle sdk mcpServer transport).
Proof.
  intros Hk. unfold mcp_handler. cbv zeta.
  rewrite (eqb_empty_false _ Hk). reflexivity.
Qed.

Lemma resolve_hit apiUrl apiKey st s :
  mcpServers st !! credentialsKey apiUrl apiKey = Some s ->
  resolve apiUrl apiKey st = (s, st, []).
Proof. intros H. unfold resolve. cbv zeta. now rewrite H. Qed.

Lemma resolve_miss apiUrl apiKey st :
  mcpServers st !! credentialsKey apiUrl apiKey = None ->
  resolve apiUrl apiKey st
  = let s := {| srv_id := next_object st; srv_apiUrl := apiUrl;
                srv_apiKey := apiKey |} in
    (s, {| analytics := analytics st;
           mcpServers := <[credentialsKey apiUrl apiKey := s]> (mcpServers st);
           next_object := S (next_object st) |},
     [CreateMcpServer s]).
Proof. intros H. unfold resolve. cbv zeta. now rewrite H. Qed.

Lemma resolve_cached apiUrl apiKey st :
  let r := resolve apiUrl apiKey st in
  mcpServers (snd (fst r)) !! credentialsKey apiUrl apiKey = Some (fst (fst r))
  /\ (forall k s, mcpServers st !! k = Some s ->
                  mcpServers (snd (fst r)) !! k = Some s).
Proof.
  cbv zeta.
  destruct (mcpServers st !! credentialsKey apiUrl apiKey) as [s0|] eqn:E.
  - rewrite (resolve_hit _ _ _ _ E). simpl. split; [exact E | auto].
  - rewrite (resolve_miss _ _ _ E). simpl. split.
    + apply lookup_insert_eq.
    + intros k s Hk. rewrite lookup_insert_ne; [exact Hk|].
      intros Heq. subst k. congruence.
Qed.

Lemma mcp_handler_keeps_cache cfg sdk t_req t_tool req st k s :
  mcpServers st !! k = Some s ->
  mcpServers (fst (mcp_handler cfg sdk t_req t_tool req st)) !! k = Some s.
Proof.
  intros Hk. unfold mcp_handler. cbv zeta.
  destruct (negb (negb (String.eqb (apiKey_of cfg req) ""))
            && is_discovery_method (mcpMethod req)); [exact Hk|].
  destruct (String.eqb (apiKey_of cfg req) ""); [exact Hk|].
  match goal with
  | |- context [resolve ?u ?a ?st0] =>
      pose proof (resolve_cached u a st0) as [_ Hr];
      destruct (resolve u a st0) as [[srv st1] created]
  end.
  simpl in *. now apply Hr.
Qed.

Lemma handle_keeps_cache cfg c sw k s :
  mcpServers (fst sw) !! k = Some s ->
  mcpServers (fst (fst (handle cfg c sw))) !! k = Some s.
Proof.
  destruct sw as [st w]. intros Hk. destruct c as [sdk t1 t2 req|now ep req|now ns req]; simpl.
  - pose proof (mcp_handler_keeps_cache cfg sdk t1 t2 req st k s Hk) as H.
    destruct (mcp_handler cfg sdk t1 t2 req st). exact H.
  - exact Hk.
  - unfold import_handler. destruct (body req); exact Hk.
Qed.

Lemma handle_all_keeps_cache cfg cs : forall sw k s,
  mcpServers (fst sw) !! k = Some s ->
  mcpServers (fst (handle_all cfg cs sw)) !! k = Some s.
Proof.
  induction cs as [|c cs IH]; intros sw k s Hk; [exact Hk|].
  simpl. apply IH. now apply handle_keeps_cache.
Qed.

Lemma credentialsKey_prefix apiUrl k1 k2 :
  String.substring 0 8 k1 = String.substring 0 8 k2 ->
  credentialsKey apiUrl k1 = credentialsKey apiUrl k2.
Proof. intros H. unfold credentialsKey. now rewrite H. Qed.

Lemma mcp_handler_serves_cached cfg sdk t_req t_tool req st :
  apiKey_of cfg req <> "" ->
  let r := mcp_handler cfg sdk t_req t_tool req st in
  let key := credentialsKey (apiUrl_of cfg req) (apiKey_of cfg req) in
  exists server,
    connected_server (snd r) = Some server
    /\ mcpServers (fst r) !! key = Some server
    /\ (forall s0, mcpServers st !! key = Some s0 ->
          server = s0 /\ forall s, ~ In (CreateMcpServer s) (snd r))
    /\ (mcpServers st !! key = None ->
          server = {| srv_id := next_object st;
                      srv_apiUrl := apiUrl_of cfg req;
                      srv_apiKey := apiKey_of cfg req |}
          /\ In (CreateMcpServer server) (snd r)).
Proof.
  intros Hk. cbv zeta. rewrite (mcp_handler_with_key _ _ _ _ _ _ Hk). cbv zeta.
  set (st0 := set_analytics _ st).
  destruct (mcpServers st !! credentialsKey (apiUrl_of cfg req) (apiKey_of cfg req))
    as [s0|] eqn:E.
  - rewrite (resolve_hit _ _ st0 s0) by exact E. simpl.
    exists s0. rewrite connected_server_connect_and_handle.
    split; [reflexivity|]. split; [exact E|]. split; [|congruence].
    intros s1 E1. split; [congruence|].
    intros s [H|H]; [discriminate H|].
    destruct sdk as [| |[|]]; simpl in H;
      repeat (destruct H as [H|H]; try discriminate H); contradiction.
  - rewrite (resolve_miss _ _ st0) by exact E. simpl.
    eexists. rewrite connected_server_connect_and_handle.
    split; [reflexivity|]. split; [apply lookup_insert_eq|].
    split; [intros s0 H; discriminate H|].
    intros _. split; [reflexivity | left; reflexivity].
Qed.

(** C1.  Take two requests to [/mcp] with non-empty API keys, the same
    API URL and keys that agree on their first 8 characters, handled in
    this order with any requests in between.  Both are connected to the
    same [McpServer] instance, the one stored under
    [`${apiUrl}:${apiKey.substring(0, 8)}`] after the first request; the
    second request constructs no server; and if the key was not cached
    before, that instance was created by the first request with the
    first request's API key. *)
Theorem cache_returns_same_server_for_same_key_prefix :
  forall cfg sdk1 sdk2 t1 t1' t2 t2' req1 req2 st w (between : list call),
    apiKey_of cfg req1 <> "" ->
    apiKey_of cfg req2 <> "" ->
    apiUrl_of cfg req1 = apiUrl_of cfg req2 ->
    String.substring 0 8 (apiKey_of cfg req1)
    = String.substring 0 8 (apiKey_of cfg req2) ->
    let key := credentialsKey (apiUrl_of cfg req1) (apiKey_of cfg req1) in
    let r1 := mcp_handler cfg sdk1 t1 t1' req1 st in
    let later := handle_all cfg between (fst r1, w) in
    let r2 := mcp_handler cfg sdk2 t2 t2' req2 (fst later) in
    exists server,
      connected_server (snd r1) = Some server
      /\ mcpServers (fst r1) !! key = Some server
      /\ connected_server (snd r2) = Some server
      /\ (forall s, ~ In (CreateMcpServer s) (snd r2))
      /\ (mcpServers st !! key = None ->
            server = {| srv_id := next_object st;
                        srv_apiUrl := apiUrl_of cfg req1;
                        srv_apiKey := apiKey_of cfg req1 |}
            /\ In (CreateMcpServer server) (snd r1)).
Proof.
  intros cfg sdk1 sdk2 t1 t1' t2 t2' req1 req2 st w between
         Hk1 Hk2 Hurl Hprefix key r1 later r2.
  destruct (mcp_handler_serves_cached cfg sdk1 t1 t1' req1 st Hk1)
    as (server & Hc1 & Hin1 & _ & Hnew).
  fold r1 in Hc1, Hin1, Hnew. fold key in Hin1, Hnew.
  assert (Hlater : mcpServers (fst later) !! key = Some server).
  { subst later. now apply handle_all_keeps_cache. }
  destruct (mcp_handler_serves_cached cfg sdk2 t2 t2' req2 (fst later) Hk2)
    as (server2 & Hc2 & _ & Hold & _).
  fold r2 in Hc2, Hold.
  rewrite <- Hurl, <- (credentialsKey_prefix _ _ _ Hprefix) in Hold.
  fold key in Hold. destruct (Hold server Hlater) as [-> Hnone].
  exists server. repeat split; assumption || (apply Hnew; assumption).
Qed.


Lemma cache_returns_same_server_for_same_key_prefix_witness :
  let req1 := request_with (Some "abcdefgh-first") (Some (rpc "tools/list" None)) in
  let req2 := request_with (Some "abcdefgh-second") (Some (rpc "tools/list" None)) in
  let r1 := mcp_handler example_config SdkOk "t1" "t1" req1 empty_state in
  let r2 := mcp_handler example_config SdkOk "t2" "t2" req2 (fst r1) in
  exists server,
    connected_server (snd r1) = Some server
    /\ connected_server (snd r2) = Some server
    /\ srv_apiKey server = "abcdefgh-first".
Proof.
  intros req1 req2 r1 r2.
  destruct (cache_returns_same_server_for_same_key_prefix
              example_config SdkOk SdkOk "t1" "t1" "t2" "t2" req1 req2
              empty_state local_only [])
    as (server & H1 & _ & H2 & _ & Hnew);
    [discriminate | discriminate | reflexivity | reflexivity |].
  exists server. split; [exact H1|]. split; [exact H2|].
  destruct Hnew as [-> _]; reflexivity.
Defined.

(** *** Requests without credentials *)

Lemma is_discovery_method_iff m :
  is_discovery_method m = true
  <-> exists s, m = Some s /\ In s discovery_methods.
Proof.
  unfold is_discovery_method, discovery_methods. split.
  - destruct m as [[|c s]|]; cbn [truthy]; try discriminate.
    intros H. exists (String c s). split; [reflexivity|].
    apply orb_true_iff in H as [H|H]; [apply orb_true_iff in H as [H|H]|];
      apply String.eqb_eq in H; rewrite H; simpl; auto.
  - intros (s & -> & [<-|[<-|[<-|[]]]]); reflexivity.
Qed.

Lemma mcp_handler_analytics cfg sdk t_req t_tool req st :
  analytics (fst (mcp_handler cfg sdk t_req t_tool req st))
  = match tool_call_name req with
    | Some name =>
        trackToolCall t_tool name req (trackRequest t_req req "/mcp" (analytics st))
    | None => trackRequest t_req req "/mcp" (analytics st)
    end.
Proof.
  unfold mcp_handler. cbv zeta.
  destruct (negb (negb (String.eqb (apiKey_of cfg req) ""))
            && is_discovery_method (mcpMethod req)); [reflexivity|].
  destruct (String.eqb (apiKey_of cfg req) ""); [reflexivity|].
  unfold resolve. cbv zeta.
  match goal with
  | |- context [mcpServers ?s !! ?k] => destruct (mcpServers s !! k)
  end; reflexivity.
Qed.

(** Servers in the cache always carry numbers already handed out. *)
Lemma mcp_handler_cache_allocated cfg sdk t_req t_tool req st :
  cache_allocated st ->
  cache_allocated (fst (mcp_handler cfg sdk t_req t_tool req st)).
Proof.
  intros Hst. unfold mcp_handler. cbv zeta.
  destruct (negb (negb (String.eqb (apiKey_of cfg req) ""))
            && is_discovery_method (mcpMethod req)).
  { intros k s Hk. specialize (Hst k s Hk). simpl in *. lia. }
  destruct (String.eqb (apiKey_of cfg req) "").
  { exact Hst. }
  unfold resolve. cbv zeta.
  match goal with
  | |- context [mcpServers ?s0 !! ?key] =>
      destruct (mcpServers s0 !! key) eqn:E
  end; intros k s Hk; simpl in *.
  - specialize (Hst k s Hk). lia.
  - destruct (decide (credentialsKey (apiUrl_of cfg req) (apiKey_of cfg req) = k))
      as [Heq|Hne].
    + subst k. rewrite lookup_insert_eq in Hk. inversion Hk; subst. simpl. lia.
    + rewrite lookup_insert_ne in Hk by exact Hne.
      specialize (Hst k s Hk). lia.
Qed.

Lemma handle_all_cache_allocated cfg cs : forall st w,
  cache_allocated st ->
  cache_allocated (fst (handle_all cfg cs (st, w))).
Proof.
  induction cs as [|c cs IH]; intros st w Hst; [exact Hst|].
  change (handle_all cfg (c :: cs) (st, w))
    with (handle_all cfg cs (fst (handle cfg c (st, w)))).
  destruct (fst (handle cfg c (st, w))) as [st1 w1] eqn:E.
  apply IH.
  destruct c as [sdk t1 t2 req|now ep req|now ns req]; simpl in E.
  - pose proof (mcp_handler_cache_allocated cfg sdk t1 t2 req st Hst) as H.
    destruct (mcp_handler cfg sdk t1 t2 req st). inversion E; subst. exact H.
  - inversion E; subst. exact Hst.
  - unfold import_handler in E. destruct (body req); inversion E; subst; exact Hst.
Qed.




(** C7.  A request to [/mcp] whose API key resolves to the empty string
    and whose body method is absent or not a discovery method gets the
    400 response with the guidance text and nothing else happens: no
    server, no transport, no SDK call, no cache insertion, no
    allocation. *)
Theorem missing_credentials_rejected_before_construction :
  forall cfg sdk t_req t_tool req st,
    apiKey_of cfg req = "" ->
    (forall m, mcpMethod req = Some m -> ~ In m discovery_methods) ->
    let r := mcp_handler cfg sdk t_req t_tool req st in
    snd r = [Respond 400 missing_key_body]
    /\ constructs_nothing (snd r) = true
    /\ mcpServers (fst r) = mcpServers st
    /\ next_object (fst r) = next_object st.
Proof.
  intros cfg sdk t_req t_tool req st Hkey Hm r.
  assert (Hd : is_discovery_method (mcpMethod req) = false).
  { apply not_true_is_false. intros H.
    apply is_discovery_method_iff in H as (s & Hs & Hin). exact (Hm s Hs Hin). }
  subst r. unfold mcp_handler. cbv zeta. rewrite Hkey, Hd. simpl.
  repeat split.
Qed.

Lemma missing_credentials_rejected_before_construction_witness :
  let req := request_with None (Some (rpc "tools/call" (Some "query_stats"))) in
  let r := mcp_handler example_config SdkOk "t1" "t1" req empty_state in
  snd r = [Respond 400 missing_key_body]
  /\ mcpServers (fst r) = mcpServers empty_state
  /\ next_object (fst r) = 0%nat.
Proof.
  intros req r.
  destruct (missing_credentials_rejected_before_construction
              example_config SdkOk "t1" "t1" req empty_state)
    as (Hr & _ & Hm & Hn).
  - reflexivity.
  - intros m Hm. inversion Hm; subst. simpl. intros [H|[H|[H|[]]]]; discriminate H.
  - split; [exact Hr|]. split; [exact Hm | exact Hn].
Defined.

(** No handler touches [serverStartTime]. *)
Lemma handle_keeps_start_time cfg c st w :
  serverStartTime (analytics (fst (fst (handle cfg c (st, w)))))
  = serverStartTime (analytics st).
Proof.
  destruct c as [sdk t1 t2 req|now ep req|now ns req]; simpl.
  - pose proof (mcp_handler_analytics cfg sdk t1 t2 req st) as Ha.
    destruct (mcp_handler cfg sdk t1 t2 req st) as [st' effs]. simpl in *.
    rewrite Ha. destruct (tool_call_name req); reflexivity.
  - reflexivity.
  - unfold import_handler. destruct (body req); reflexivity.
Qed.

(** *** Recording happens first *)




(** *** The two totals *)

(** C8 as stated does not hold of the code: importing negative totals
    lowers both counters. *)
Lemma import_of_negative_totals_decreases_counters :
  let req := import_request (Some (-5)) (Some (-2)) in
  let r := import_handler "2026-01-01T10:00:00.000Z" "2026-01-01T10:00:00.001Z"
             req empty_state local_only in
  let after := analytics (fst (fst r)) in
  totalRequests (analytics empty_state) = 0
  /\ totalRequests after = -4
  /\ totalToolCalls (analytics empty_state) = 0
  /\ totalToolCalls after = -2
  /\ ~ (totalRequests (analytics empty_state) <= totalRequests after)
  /\ ~ (totalToolCalls (analytics empty_state) <= totalToolCalls after).
Proof.
  cbv zeta. repeat split; try reflexivity; vm_compute; intros H; apply H; reflexivity.
Qed.

Lemma add_imported_nonnegative total imported :
  nonnegative imported = true -> total <= add_imported total imported.
Proof.
  unfold nonnegative, add_imported. destruct imported as [n|]; [|lia].
  intros H. apply Z.leb_le in H. destruct (n =? 0); lia.
Qed.

Lemma handle_totals_monotone cfg c st w :
  imports_nonnegative c = true ->
  let st' := fst (fst (handle cfg c (st, w))) in
  totalRequests (analytics st) <= totalRequests (analytics st')
  /\ totalToolCalls (analytics st) <= totalToolCalls (analytics st').
Proof.
  intros Hc. cbv zeta.
  destruct c as [sdk t1 t2 req|now ep req|now ns req]; simpl.
  - pose proof (mcp_handler_analytics cfg sdk t1 t2 req st) as Ha.
    destruct (mcp_handler cfg sdk t1 t2 req st) as [st' effs]. simpl in *.
    rewrite Ha. destruct (tool_call_name req); simpl; lia.
  - lia.
  - simpl in Hc. unfold import_handler. destruct (body req) as [b|]; simpl.
    + apply andb_true_iff in Hc as [H1 H2].
      pose proof (add_imported_nonnegative (totalRequests (analytics st) + 1) _ H1).
      pose proof (add_imported_nonnegative (totalToolCalls (analytics st)) _ H2).
      lia.
    + lia.
Qed.

(** C8 (amended).  [trackRequest] and [trackToolCall] never lower
    [totalRequests] or [totalToolCalls], and neither does any sequence of
    requests in which every import submits totals that are absent or not
    negative. *)
Theorem totals_monotone_amended :
  (forall now req endpoint a,
      totalRequests a <= totalRequests (trackRequest now req endpoint a)
      /\ totalToolCalls a <= totalToolCalls (trackRequest now req endpoint a))
  /\ (forall now toolName req a,
        totalRequests a <= totalRequests (trackToolCall now toolName req a)
        /\ totalToolCalls a <= totalToolCalls (trackToolCall now toolName req a))
  /\ (forall cfg cs st w,
        forallb imports_nonnegative cs = true ->
        let st' := fst (handle_all cfg cs (st, w)) in
        totalRequests (analytics st) <= totalRequests (analytics st')
        /\ totalToolCalls (analytics st) <= totalToolCalls (analytics st')).
Proof.
  split; [|split].
  - intros. simpl. lia.
  - intros. simpl. lia.
  - intros cfg cs. induction cs as [|c cs IH]; intros st w Hcs; cbv zeta.
    + simpl. lia.
    + simpl in Hcs. apply andb_true_iff in Hcs as [Hc Hcs].
      pose proof (handle_totals_monotone cfg c st w Hc) as Hstep.
      cbv zeta in Hstep.
      change (handle_all cfg (c :: cs) (st, w))
        with (handle_all cfg cs (fst (handle cfg c (st, w)))).
      destruct (fst (handle cfg c (st, w))) as [st1 w1] eqn:E.
      specialize (IH st1 w1 Hcs). cbv zeta in IH.
      cbn [fst] in Hstep. lia.
Qed.

Lemma totals_monotone_amended_witness :
  let cs := [CallImport "t1" "t2" (import_request (Some 40) None);
             CallGet "t3" "/health" (request_with None None)] in
  let st' := fst (handle_all example_config cs (empty_state, local_only)) in
  0 <= totalRequests (analytics st') /\ 0 <= totalToolCalls (analytics st').
Proof.
  intros cs st'.
  destruct totals_monotone_amended as (_ & _ & H).
  apply (H example_config cs empty_state local_only). reflexivity.
Defined.

End HttpClaims.
